(** * The data-controls fetch adapter of packages/data-controls/src/index.js

    A shallow embedding of the request-batching adapter: the [apiFetch]
    effect constructor, the [API_FETCH] registry control (the dispatcher),
    the batch-eligibility predicate, the processor registration guard and
    the asynchronous [batchProcessor]. *)

From Stdlib Require Import ZArith Lia.
From stdpp Require Import base option list strings gmap.

Local Open Scope string_scope.
Local Open Scope Z_scope.
Local Open Scope list_scope.

(** ** Opaque JavaScript payloads

    Request bodies, header maps, response bodies and thrown values are plain
    JSON-like data for the adapter: it only moves them around. *)

#[warnings="-register-all"]
Inductive JsValue : Type :=
| JsUndefined
| JsNull
| JsBool (b : bool)
| JsNumber (n : Z)
| JsString (s : string)
| JsArray (items : list JsValue)
| JsObject (fields : list (string * JsValue)).

(** ** Request descriptors

    [method] and [batchAs] are optional properties of the options object
    ([None] is the absent property, read as [undefined]); [path] is a
    string, [data] and [headers] are carried unchanged. *)

Module Request.
Record t : Type := mk {
  path : string;
  method : option string;
  data : JsValue;
  headers : JsValue;
  batchAs : option string
}.
End Request.

(** ** String search: [String.prototype.indexOf] *)

(** [startsWith s needle]: [needle] occurs in [s] at position 0. *)
Fixpoint startsWith (s needle : string) {struct needle} : bool :=
  match needle, s with
  | EmptyString, _ => true
  | String _ _, EmptyString => false
  | String c needle', String d s' => if Ascii.eqb c d then startsWith s' needle' else false
  end.

(** [indexOf s needle] is the position of the first occurrence of [needle]
    in [s], or [-1] when there is none. *)
Fixpoint indexOf (s needle : string) : Z :=
  if startsWith s needle then 0
  else match s with
       | EmptyString => -1
       | String _ s' =>
           let i := indexOf s' needle in
           if i =? -1 then -1 else i + 1
       end.

(** [Array.prototype.includes] on an array of strings, for a search value
    that may be [undefined]. *)
Definition includes (xs : list string) (x : option string) : bool :=
  match x with
  | Some v => existsb (String.eqb v) xs
  | None => false
  end.

(** JavaScript truthiness of an optional string property: [undefined] and
    the empty string are falsy. *)
Definition truthy (v : option string) : bool :=
  match v with
  | Some s => negb (String.eqb s "")
  | None => false
  end.

(** ** The batch-eligibility predicate *)

Definition endpointSupportsBatch (path : string) : bool :=
  negb (indexOf path "/v2/template-parts" =? -1).

(** ** Wire shapes of the batch endpoint *)

(** One entry of the [requests] array of the batch body. *)
Module WireRequest.
Record t : Type := mk {
  path : string;
  body : JsValue;
  method : option string;
  headers : JsValue
}.
End WireRequest.

(** The [data] property of the combined call. *)
Module BatchData.
Record t : Type := mk {
  validation : string;
  requests : list WireRequest.t
}.
End BatchData.

(** The options object of the combined call. *)
Module BatchCall.
Record t : Type := mk {
  path : string;
  method : string;
  data : BatchData.t
}.
End BatchCall.

(** One entry of the [responses] array of the batch response. *)
Module ResponseItem.
Record t : Type := mk {
  body : JsValue;
  status : JsValue;
  headers : JsValue
}.
End ResponseItem.

Module BatchResponse.
Record t : Type := mk {
  failed : bool;
  responses : list ResponseItem.t
}.
End BatchResponse.

(** A transaction of the batch-processing store; the adapter reads only
    its [state]. *)
Module Transaction.
Record t : Type := mk {
  state : string
}.
End Transaction.

(** ** Asynchronous functions

    An [async] function either returns (its promise is fulfilled), throws
    (its promise is rejected), or suspends at [await triggerFetch( ... )]
    and goes on with the value the fetch promise is fulfilled with.  A
    rejected fetch promise is rethrown at the [await]: that is the
    business of [run] below. *)

Inductive Async (A : Type) : Type :=
| Return (a : A)
| Throw (e : JsValue)
| AwaitTriggerFetch (options : BatchCall.t) (k : BatchResponse.t -> Async A).

Arguments Return {A} a.
Arguments Throw {A} e.
Arguments AwaitTriggerFetch {A} options k.

(** How a promise settles. *)
Inductive Settled (A : Type) : Type :=
| Fulfilled (a : A)
| Rejected (e : JsValue).

Arguments Fulfilled {A} a.
Arguments Rejected {A} e.

(** The network answers a call knowing the calls made before it. *)
Definition Network : Type := list BatchCall.t -> BatchCall.t -> Settled BatchResponse.t.

(** [run net calls p] runs [p] to completion against [net], [calls] being
    the network calls made so far (oldest first); it gives the calls made
    in the end and how the promise of [p] settles. *)
Fixpoint run {A : Type} (net : Network) (calls : list BatchCall.t) (p : Async A)
  : list BatchCall.t * Settled A :=
  match p with
  | Return a => (calls, Fulfilled a)
  | Throw e => (calls, Rejected e)
  | AwaitTriggerFetch options k =>
      match net calls options with
      | Fulfilled response => run net (calls ++ [options]) (k response)
      | Rejected e => (calls ++ [options], Rejected e)
      end
  end.

(** The network calls of a run and the settlement of its promise. *)
Definition networkCalls {A : Type} (net : Network) (p : Async A) : list BatchCall.t :=
  fst (run net [] p).

Definition settlement {A : Type} (net : Network) (p : Async A) : Settled A :=
  snd (run net [] p).

(** ** Synchronous code and its calls into the outside world

    The control and the registration guard are synchronous: they call the
    fetch primitive or an action of the batch-processing store of a
    registry, and hand back what that call returned.  The calls are
    recorded in order. *)

(** A registry instance, by identity. *)
Definition Registry : Type := nat.

(** What can be registered as a processor. *)
Definition Processor : Type := list Request.t -> Transaction.t -> Async JsValue.

Inductive Effect : Type :=
| TriggerFetch (options : Request.t)
| RegisterProcessor (registry : Registry) (storeName : string)
    (effectType : string) (processor : Processor)
| EnqueueItemAndAutocommit (registry : Registry) (storeName : string)
    (effectType groupId : string) (item : Request.t).

(** The value a function hands back: [undefined], or whatever the given
    outside call returned (a promise). *)
Inductive Returned : Type :=
| Undefined
| ResultOf (e : Effect).

Definition Sync (A : Type) : Type := list Effect -> A * list Effect.

Definition ret {A : Type} (a : A) : Sync A := fun log => (a, log).

Definition bind {A B : Type} (m : Sync A) (f : A -> Sync B) : Sync B :=
  fun log => let (a, log') := m log in f a log'.

Definition call (e : Effect) : Sync Returned :=
  fun log => (ResultOf e, log ++ [e]).

Declare Scope sync_scope.
Delimit Scope sync_scope with sync.
Bind Scope sync_scope with Sync.

Notation "m ;; n" := (bind m (fun _ => n))
  (at level 100, n at level 200, right associativity) : sync_scope.

(** The calls a piece of synchronous code makes, and its result, when it
    starts with nothing recorded. *)
Definition effectsOf {A : Type} (m : Sync A) : list Effect := snd (m []).
Definition resultOf {A : Type} (m : Sync A) : A := fst (m []).

Definition isRegistryEffect (e : Effect) : bool :=
  match e with
  | TriggerFetch _ => false
  | RegisterProcessor _ _ _ _ => true
  | EnqueueItemAndAutocommit _ _ _ _ _ => true
  end.

Definition isRegistration (e : Effect) : bool :=
  match e with
  | RegisterProcessor _ _ _ _ => true
  | _ => false
  end.

(** Number of [registerProcessor] calls among recorded calls. *)
Definition registrations (log : list Effect) : nat :=
  length (filter (fun e => isRegistration e = true) log).

(** The action objects handled by the control. *)
Module Action.
Record t : Type := mk {
  type : string;
  request : Request.t
}.
End Action.

Section Adapter.

(** The error sentinel exported by the batch-processing package; its
    value is not part of this source file. *)
Variable TRANSACTION_ERROR : string.

(** *** The batch processor *)

(** The callback of [requests.map] in the body of the combined call. *)
Definition projectRequest (options : Request.t) : WireRequest.t :=
  {| WireRequest.path := Request.path options;
     WireRequest.body := Request.data options;
     WireRequest.method := Request.method options;
     WireRequest.headers := Request.headers options |}.

(** The value thrown for a transaction in the error state. *)
Definition transactionFailed : JsValue :=
  JsObject [ ("code", JsString "transaction_failed");
             ("data", JsObject [ ("status", JsNumber 500) ]);
             ("message", JsString "Transaction failed.") ].

Definition batchProcessor (requests : list Request.t) (transaction : Transaction.t)
  : Async JsValue :=
  if String.eqb (Transaction.state transaction) TRANSACTION_ERROR then
    Throw transactionFailed
  else
    AwaitTriggerFetch
      {| BatchCall.path := "/__experimental/batch";
         BatchCall.method := "POST";
         BatchCall.data :=
           {| BatchData.validation := "require-all-validate";
              BatchData.requests := map projectRequest requests |} |}
      (fun response =>
         if BatchResponse.failed response then
           Throw (JsArray (map ResponseItem.body (BatchResponse.responses response)))
         else
           Return (JsArray (map ResponseItem.body (BatchResponse.responses response)))).

(** *** The registration guard *)

Definition registered : bool := false.

Definition registerBatchProcessor (registry : Registry) : Sync Returned :=
  if registered then
    ret Undefined
  else
    call (RegisterProcessor registry "core/batch-processing" "API_FETCH" batchProcessor).

(** *** The control *)

Definition API_FETCH (registry : Registry) (action : Action.t) : Sync Returned :=
  let request := Action.request action in
  if negb (includes [ "POST"; "PUT"; "PATCH"; "DELETE" ] (Request.method request))
     || negb (truthy (Request.batchAs request))
     || negb (endpointSupportsBatch (Request.path request))
  then
    call (TriggerFetch request)
  else
    (registerBatchProcessor registry ;;
     call (EnqueueItemAndAutocommit registry "core/batch-processing" "API_FETCH" "abc" request))%sync.

(** A run of calls to the guard, one per registry of the list, in order. *)
Fixpoint registerEach (registries : list Registry) : Sync unit :=
  match registries with
  | [] => ret tt
  | registry :: rest => (registerBatchProcessor registry ;; registerEach rest)%sync
  end.

End Adapter.

(** ** Objects by reference: the effect constructor

    Whether [apiFetch] hands on the very object it was given can only be
    said with object identity, so this part keeps an object store: a value
    is a primitive or a reference, an object maps property names to values,
    and an object literal allocates a fresh object. *)

Module ObjectStore.

Definition loc : Type := positive.

Inductive Value : Type :=
| Undef
| Null
| Bool (b : bool)
| Number (n : Z)
| Str (s : string)
| Ref (l : loc).

Abbreviation Object := (gmap string Value).
Abbreviation Heap := (gmap loc Object).

(** Evaluation of an object literal with the given properties. *)
Definition newObject (properties : Object) (heap : Heap) : Value * Heap :=
  let l := fresh (dom heap) in
  (Ref l, <[l := properties]> heap).

Definition apiFetch (request : Value) (heap : Heap) : Value * Heap :=
  newObject (<["type" := Str "API_FETCH"]> (<["request" := request]> ∅)) heap.

End ObjectStore.

(** ** Vocabulary of the specification *)

(** [needle] occurs somewhere in [s]. *)
Definition contains (s needle : string) : Prop :=
  exists pre post, s = pre +:+ needle +:+ post.

(** The three conditions under which a request is handed to batching. *)
Definition batchEligible (request : Request.t) : Prop :=
  (exists m, Request.method request = Some m /\
             (m = "POST" \/ m = "PUT" \/ m = "PATCH" \/ m = "DELETE")) /\
  (exists tag, Request.batchAs request = Some tag /\ tag <> "") /\
  contains (Request.path request) "/v2/template-parts".

(** Reading a wire request back as a request descriptor: the inverse
    renaming of the projection ([body] back to [data]); the wire shape has
    no batch tag. *)
Definition unprojectRequest (w : WireRequest.t) : Request.t :=
  {| Request.path := WireRequest.path w;
     Request.method := WireRequest.method w;
     Request.data := WireRequest.body w;
     Request.headers := WireRequest.headers w;
     Request.batchAs := None |}.

(** The combined call of the wire contract, for a given [requests] array. *)
Definition batchEndpointCall (wire : list WireRequest.t) : BatchCall.t :=
  {| BatchCall.path := "/__experimental/batch";
     BatchCall.method := "POST";
     BatchCall.data := {| BatchData.validation := "require-all-validate";
                          BatchData.requests := wire |} |}.

(** The payload a promise settles with, fulfilled or rejected. *)
Definition payload (r : Settled JsValue) : JsValue :=
  match r with
  | Fulfilled v => v
  | Rejected e => e
  end.

(** ** Sample data *)

Definition saveHeader : Request.t :=
  {| Request.path := "/wp/v2/template-parts/7";
     Request.method := Some "PUT";
     Request.data := JsObject [ ("title", JsString "Header") ];
     Request.headers := JsObject [ ("X-WP-Nonce", JsString "n0") ];
     Request.batchAs := Some "save" |}.

Definition deleteFooter : Request.t :=
  {| Request.path := "/wp/v2/template-parts/9";
     Request.method := Some "DELETE";
     Request.data := JsUndefined;
     Request.headers := JsUndefined;
     Request.batchAs := Some "save" |}.

Definition listPosts : Request.t :=
  {| Request.path := "/wp/v2/posts";
     Request.method := None;
     Request.data := JsUndefined;
     Request.headers := JsUndefined;
     Request.batchAs := None |}.

Definition openTransaction : Transaction.t := {| Transaction.state := "IN_PROGRESS" |}.
Definition brokenTransaction : Transaction.t := {| Transaction.state := "ERROR" |}.

Definition headerSaved : ResponseItem.t :=
  {| ResponseItem.body := JsObject [ ("id", JsNumber 7) ];
     ResponseItem.status := JsNumber 200;
     ResponseItem.headers := JsObject [] |}.

Definition footerDeleted : ResponseItem.t :=
  {| ResponseItem.body := JsObject [ ("deleted", JsBool true) ];
     ResponseItem.status := JsNumber 200;
     ResponseItem.headers := JsObject [] |}.

Definition footerMissing : ResponseItem.t :=
  {| ResponseItem.body := JsObject [ ("code", JsString "rest_post_invalid_id") ];
     ResponseItem.status := JsNumber 404;
     ResponseItem.headers := JsObject [] |}.

(** A network that answers every call with the same response. *)
Definition answering (response : BatchResponse.t) : Network :=
  fun _ _ => Fulfilled response.

(** ** Callers of the control and of the processor *)

(** A run of the control over a list of actions, each with the registry
    of the store that yielded it, in order. *)
Fixpoint dispatchEach (TRANSACTION_ERROR : string) (jobs : list (Registry * Action.t))
  : Sync unit :=
  match jobs with
  | [] => ret tt
  | (registry, action) :: rest =>
      (API_FETCH TRANSACTION_ERROR registry action ;; dispatchEach TRANSACTION_ERROR rest)%sync
  end.

(** The request a recorded call consumes: the one fetched or the one
    enqueued; a registration consumes none. *)
Definition consumed (e : Effect) : option Request.t :=
  match e with
  | TriggerFetch options => Some options
  | RegisterProcessor _ _ _ _ => None
  | EnqueueItemAndAutocommit _ _ _ _ item => Some item
  end.

(** The same request descriptor under another batch tag. *)
Definition retagged (tag : option string) (options : Request.t) : Request.t :=
  {| Request.path := Request.path options;
     Request.method := Request.method options;
     Request.data := Request.data options;
     Request.headers := Request.headers options;
     Request.batchAs := tag |}.

(** ** The block variation transforms component

    The component reads the variations of the selected block through two
    store selectors, renders nothing without variations and otherwise a
    select control whose change handler applies the attributes of the
    chosen variation to the block. *)

Module Variation.
Record t : Type := mk {
  name : string;
  title : string;
  attributes : option (list (string * JsValue))
}.
End Variation.

Module SelectOption.
Record t : Type := mk {
  value : string;
  label : string
}.
End SelectOption.

(** The element the component returns: the wrapper [div] and the props of
    its [SelectControl], the change handler apart. *)
Module Element.
Record t : Type := mk {
  className : string;
  label : string;
  value : string;
  options : list SelectOption.t
}.
End Element.

(** [a && f( a )] for an optional string [a]: a falsy [a] ([undefined],
    [null], the empty string) is itself the result, read as [None]. *)
Definition andThen {A : Type} (a : option string) (f : string -> option A) : option A :=
  match a with
  | Some s => if String.eqb s "" then None else f s
  | None => None
  end.

(** Object spread [{ ...o }]: the properties of [o], none for [undefined]. *)
Definition spread (o : option (list (string * JsValue))) : list (string * JsValue) :=
  match o with
  | Some properties => properties
  | None => []
  end.

(** What the change handler does to the outside: the state setter of
    [useState] and the [updateBlockAttributes] action of the block editor
    store. *)
Inductive UIEffect : Type :=
| SetVariationsSelectValue (value : string)
| UpdateBlockAttributes (clientId : option string) (attributes : list (string * JsValue)).

(** How a handler ends: normally, or by the [TypeError] of reading a
    property of [undefined]. *)
Inductive Completion : Type :=
| Completed
| ThrewTypeError.

Section BlockVariationTransforms.

(** The translation function [__] and the selectors [getBlockName] (of
    [core/block-editor]) and [getBlockVariations] (of [core/blocks]). *)
Variable translate : string -> string.
Variable getBlockName : string -> option string.
Variable getBlockVariations : string -> string -> option (list Variation.t).

(** The [variations] computed by the callback of [useSelect]. *)
Definition useSelectVariations (selectedBlockClientId : option string)
  : option (list Variation.t) :=
  let blockName := andThen selectedBlockClientId getBlockName in
  andThen blockName (fun blockName => getBlockVariations blockName "transform").

Definition selectOptions (variations : list Variation.t) : list SelectOption.t :=
  {| SelectOption.value := ""; SelectOption.label := translate "Select a variation" |}
  :: map (fun variation =>
            {| SelectOption.value := Variation.name variation;
               SelectOption.label := Variation.title variation |})
         variations.

Definition onSelectVariation (selectedBlockClientId : option string)
    (variations : list Variation.t) (variationName : string)
  : list UIEffect * Completion :=
  if String.eqb variationName "" then
    ([ SetVariationsSelectValue variationName ], Completed)
  else
    match List.find (fun variation => String.eqb (Variation.name variation) variationName)
                    variations with
    | None => ([ SetVariationsSelectValue variationName ], ThrewTypeError)
    | Some variation =>
        ([ SetVariationsSelectValue variationName;
           UpdateBlockAttributes selectedBlockClientId
             (spread (Variation.attributes variation)) ],
         Completed)
    end.

(** The component, for the selected block and the current value of its
    [variationsSelectValue] state; [None] is the [null] it returns. *)
Definition __experimentalBlockVariationTransforms
    (selectedBlockClientId : option string) (variationsSelectValue : string)
  : option Element.t :=
  match useSelectVariations selectedBlockClientId with
  | None => None
  | Some [] => None
  | Some variations =>
      Some {| Element.className := "block-editor-block-variation-transforms";
              Element.label := translate "Transform to variation";
              Element.value := variationsSelectValue;
              Element.options := selectOptions variations |}
  end.

End BlockVariationTransforms.

(** Sample blocks and variations. *)

Definition groupRow : Variation.t :=
  {| Variation.name := "group-row";
     Variation.title := "Row";
     Variation.attributes := Some [ ("layout", JsString "flex") ] |}.

Definition groupStack : Variation.t :=
  {| Variation.name := "group-stack";
     Variation.title := "Stack";
     Variation.attributes := None |}.

Definition groupRowAgain : Variation.t :=
  {| Variation.name := "group-row";
     Variation.title := "Row (wide)";
     Variation.attributes := Some [ ("align", JsString "wide") ] |}.

Definition sampleBlockName (clientId : string) : option string :=
  if String.eqb clientId "block-1" then Some "core/group" else None.

Definition sampleBlockVariations (blockName scope : string) : option (list Variation.t) :=
  if String.eqb blockName "core/group" && String.eqb scope "transform"
  then Some [ groupRow; groupStack ]
  else None.

(** * Properties *)

(** ** String search *)

Lemma append_String (c : Ascii.ascii) (s t : string) :
  String c s +:+ t = String c (s +:+ t).
Proof. reflexivity. Qed.

Lemma append_empty (t : string) : "" +:+ t = t.
Proof. reflexivity. Qed.

Lemma startsWith_spec (needle s : string) :
  startsWith s needle = true <-> exists post, s = needle +:+ post.
Proof.
  revert s. induction needle as [|c needle IH]; intros s; simpl.
  - split; [intros _; now exists s | reflexivity].
  - destruct s as [|d s]; simpl.
    + split; [discriminate | intros [post H]; discriminate].
    + destruct (Ascii.eqb c d) eqn:E.
      * apply Ascii.eqb_eq in E as ->. rewrite IH.
        split; intros [post H]; exists post;
          rewrite append_String in *; congruence.
      * apply Ascii.eqb_neq in E.
        split; [discriminate |].
        intros [post H]. rewrite append_String in H. congruence.
Qed.

Lemma indexOf_range (s needle : string) :
  indexOf s needle = -1 \/ 0 <= indexOf s needle.
Proof.
  induction s as [|c s IH]; simpl.
  - destruct (startsWith _ _); [right | left]; lia.
  - destruct (startsWith _ _); [right; lia |].
    destruct (indexOf s needle =? -1) eqn:E; [now left | right].
    apply Z.eqb_neq in E. lia.
Qed.

Lemma indexOf_contains (s needle : string) :
  indexOf s needle <> -1 <-> contains s needle.
Proof.
  split.
  - induction s as [|c s IH]; simpl.
    + destruct (startsWith "" needle) eqn:E; [| congruence].
      intros _. apply startsWith_spec in E as [post ->]. now exists "", post.
    + destruct (startsWith (String c s) needle) eqn:E.
      * intros _. apply startsWith_spec in E as [post ->]. now exists "", post.
      * destruct (indexOf s needle =? -1) eqn:F; [congruence |].
        intros _. apply Z.eqb_neq in F.
        destruct (IH F) as (pre & post & ->). now exists (String c pre), post.
  - intros (pre & post & ->). induction pre as [|c pre IH].
    + rewrite append_empty.
      assert (H : startsWith (needle +:+ post) needle = true)
        by (apply startsWith_spec; now exists post).
      destruct (needle +:+ post); simpl; rewrite H; lia.
    + rewrite append_String. cbn [indexOf].
      destruct (startsWith _ needle); [lia |].
      destruct (indexOf_range (pre +:+ needle +:+ post) needle) as [H | H];
        [congruence |].
      destruct (Z.eqb_spec (indexOf (pre +:+ needle +:+ post) needle) (-1)); lia.
Qed.

Lemma endpointSupportsBatch_contains (path : string) :
  endpointSupportsBatch path = true <-> contains path "/v2/template-parts".
Proof.
  unfold endpointSupportsBatch. rewrite <- indexOf_contains.
  destruct (Z.eqb_spec (indexOf path "/v2/template-parts") (-1)); simpl;
    split; congruence.
Qed.

(** ** The decision rule of the control *)

Lemma includes_mutating (m : option string) :
  includes [ "POST"; "PUT"; "PATCH"; "DELETE" ] m = true <->
  exists v, m = Some v /\ (v = "POST" \/ v = "PUT" \/ v = "PATCH" \/ v = "DELETE").
Proof.
  destruct m as [v|]; simpl.
  - rewrite !orb_true_iff, !String.eqb_eq. split.
    + intros H. exists v. intuition discriminate.
    + intros (w & [= <-] & H). intuition.
  - split; [discriminate | intros (v & [=] & _)].
Qed.

Lemma truthy_nonempty (b : option string) :
  truthy b = true <-> exists tag, b = Some tag /\ tag <> "".
Proof.
  destruct b as [tag|]; simpl.
  - rewrite negb_true_iff, String.eqb_neq. split.
    + intros H. now exists tag.
    + now intros (w & [= <-] & H).
  - split; [discriminate | intros (v & [=] & _)].
Qed.

Lemma decision_rule (request : Request.t) :
  negb (includes [ "POST"; "PUT"; "PATCH"; "DELETE" ] (Request.method request))
  || negb (truthy (Request.batchAs request))
  || negb (endpointSupportsBatch (Request.path request)) = false
  <-> batchEligible request.
Proof.
  unfold batchEligible.
  rewrite <- includes_mutating, <- truthy_nonempty, <- endpointSupportsBatch_contains.
  rewrite !orb_false_iff, !negb_false_iff. tauto.
Qed.

Lemma decision_rule_dec (request : Request.t) :
  batchEligible request \/ ~ batchEligible request.
Proof.
  rewrite <- decision_rule. destruct (_ || _ || _); [right | left]; congruence.
Qed.

Lemma String_eqb_neq_false (a b : string) : a <> b -> String.eqb a b = false.
Proof. apply String.eqb_neq. Qed.

(** ** The control *)

(** C2: the control hands a request to [enqueueItemAndAutocommit] of the
    batch-processing store, with effect type [API_FETCH] and batch group
    [abc], exactly when the method is one of POST, PUT, PATCH, DELETE, the
    batch tag is present and non-empty and the path contains
    [/v2/template-parts].  In that case the enqueue is its last call, its
    result is handed back, and nothing but processor registration precedes
    it; otherwise the only call is the direct fetch of the request and no
    call reaches the registry. *)
Theorem API_FETCH_routing (TRANSACTION_ERROR : string) (registry : Registry)
    (action : Action.t) :
  (In (EnqueueItemAndAutocommit registry "core/batch-processing" "API_FETCH" "abc"
         (Action.request action))
      (effectsOf (API_FETCH TRANSACTION_ERROR registry action))
   <-> batchEligible (Action.request action))
  /\ (batchEligible (Action.request action) ->
        resultOf (API_FETCH TRANSACTION_ERROR registry action)
        = ResultOf (EnqueueItemAndAutocommit registry "core/batch-processing"
                      "API_FETCH" "abc" (Action.request action))
        /\ exists before,
             effectsOf (API_FETCH TRANSACTION_ERROR registry action)
             = before ++ [ EnqueueItemAndAutocommit registry "core/batch-processing"
                             "API_FETCH" "abc" (Action.request action) ]
             /\ Forall (fun e => isRegistration e = true) before)
  /\ (~ batchEligible (Action.request action) ->
        effectsOf (API_FETCH TRANSACTION_ERROR registry action)
        = [ TriggerFetch (Action.request action) ]
        /\ resultOf (API_FETCH TRANSACTION_ERROR registry action)
           = ResultOf (TriggerFetch (Action.request action))
        /\ Forall (fun e => isRegistryEffect e = false)
             (effectsOf (API_FETCH TRANSACTION_ERROR registry action))).
Proof.
  pose proof (decision_rule (Action.request action)) as rule.
  unfold effectsOf, resultOf, API_FETCH.
  destruct (_ || _ || _) eqn:test; cbn.
  - assert (no : ~ batchEligible (Action.request action))
      by (intros yes; apply rule in yes; discriminate).
    split; [| split].
    + split; [| tauto]. intros [[=] | []].
    + tauto.
    + intros _. repeat split. repeat constructor.
  - assert (yes : batchEligible (Action.request action)) by now apply rule.
    split; [| split].
    + split; [tauto |]. intros _. right. now left.
    + intros _. split; [reflexivity |].
      eexists [ _ ]. split; [reflexivity |]. repeat constructor.
    + tauto.
Qed.

(** ** The registration guard *)

Lemma registerEach_log (TRANSACTION_ERROR : string) (registries : list Registry)
    (log : list Effect) :
  snd (registerEach TRANSACTION_ERROR registries log)
  = log ++ map (fun registry =>
                  RegisterProcessor registry "core/batch-processing" "API_FETCH"
                    (batchProcessor TRANSACTION_ERROR))
               registries.
Proof.
  revert log. induction registries as [|registry rest IH]; intros log; cbn.
  - now rewrite app_nil_r.
  - rewrite IH, <- app_assoc. reflexivity.
Qed.

Lemma registrations_of_registers (processor : Processor) (registries : list Registry) :
  registrations
    (map (fun registry =>
            RegisterProcessor registry "core/batch-processing" "API_FETCH" processor)
         registries)
  = length registries.
Proof.
  unfold registrations. induction registries as [|registry rest IH]; [reflexivity |].
  cbn [map]. rewrite filter_cons_True by reflexivity. cbn. now rewrite IH.
Qed.

(** Every call to the guard registers the processor again: the flag it
    tests is never set. *)
Lemma registerBatchProcessor_registers_every_time (TRANSACTION_ERROR : string)
    (registries : list Registry) :
  registrations (effectsOf (registerEach TRANSACTION_ERROR registries))
  = length registries.
Proof.
  unfold effectsOf. rewrite registerEach_log. apply registrations_of_registers.
Qed.

(** C1 (the code departs from it): two calls to the guard on the same
    registry make two [registerProcessor] calls, not one. *)
Theorem registerBatchProcessor_twice_registers_twice :
  registrations (effectsOf (registerEach "ERROR" [ 0%nat; 0%nat ])) = 2%nat
  /\ effectsOf (registerEach "ERROR" [ 0%nat; 0%nat ])
     = [ RegisterProcessor 0%nat "core/batch-processing" "API_FETCH" (batchProcessor "ERROR");
         RegisterProcessor 0%nat "core/batch-processing" "API_FETCH" (batchProcessor "ERROR") ].
Proof. split; reflexivity. Qed.

(** ** The batch processor *)

Section BatchProcessor.

Variable TRANSACTION_ERROR : string.
Variables (requests : list Request.t) (transaction : Transaction.t).
Variable net : Network.

Lemma run_batchProcessor_open :
  Transaction.state transaction <> TRANSACTION_ERROR ->
  run net [] (batchProcessor TRANSACTION_ERROR requests transaction)
  = match net [] (batchEndpointCall (map projectRequest requests)) with
    | Fulfilled response =>
        ([ batchEndpointCall (map projectRequest requests) ],
         let bodies := JsArray (map ResponseItem.body (BatchResponse.responses response)) in
         if BatchResponse.failed response then Rejected bodies else Fulfilled bodies)
    | Rejected e => ([ batchEndpointCall (map projectRequest requests) ], Rejected e)
    end.
Proof.
  intros open. unfold batchProcessor.
  rewrite (String_eqb_neq_false _ _ open). cbn [run].
  fold (batchEndpointCall (map projectRequest requests)).
  destruct (net [] _) as [response | e]; [| reflexivity].
  destruct (BatchResponse.failed response); reflexivity.
Qed.

(** C3: for a transaction in the error state the processor rejects with
    the [transaction_failed] error (status 500, message "Transaction
    failed.") and makes no network call, whatever the requests. *)
Theorem batchProcessor_transaction_error :
  Transaction.state transaction = TRANSACTION_ERROR ->
  settlement net (batchProcessor TRANSACTION_ERROR requests transaction)
  = Rejected (JsObject [ ("code", JsString "transaction_failed");
                         ("data", JsObject [ ("status", JsNumber 500) ]);
                         ("message", JsString "Transaction failed.") ])
  /\ networkCalls net (batchProcessor TRANSACTION_ERROR requests transaction) = [].
Proof.
  intros broken. unfold settlement, networkCalls, batchProcessor.
  rewrite broken, String.eqb_refl. split; reflexivity.
Qed.

(** C4: for a transaction not in the error state the processor makes
    exactly one network call: POST to [/__experimental/batch], whose body
    has [validation] set to [require-all-validate] and, as [requests],
    one entry [{path, body: data, method, headers}] per request
    descriptor, in the order of the input. *)
Theorem batchProcessor_one_combined_call :
  Transaction.state transaction <> TRANSACTION_ERROR ->
  exists combined,
    networkCalls net (batchProcessor TRANSACTION_ERROR requests transaction) = [ combined ]
    /\ BatchCall.path combined = "/__experimental/batch"
    /\ BatchCall.method combined = "POST"
    /\ BatchData.validation (BatchCall.data combined) = "require-all-validate"
    /\ length (BatchData.requests (BatchCall.data combined)) = length requests
    /\ forall (i : nat) (options : Request.t),
         requests !! i = Some options ->
         BatchData.requests (BatchCall.data combined) !! i
         = Some {| WireRequest.path := Request.path options;
                   WireRequest.body := Request.data options;
                   WireRequest.method := Request.method options;
                   WireRequest.headers := Request.headers options |}.
Proof.
  intros open. exists (batchEndpointCall (map projectRequest requests)).
  unfold networkCalls. rewrite (run_batchProcessor_open open).
  split; [destruct (net [] _); reflexivity |].
  cbn. repeat split; [apply length_map |].
  intros i options at_i. rewrite list_lookup_fmap, at_i. reflexivity.
Qed.

Variable response : BatchResponse.t.

(** C5: when the batch response does not say [failed], the processor
    resolves to the bodies of the response items, one per item and in
    the order of the response. *)
Theorem batchProcessor_resolves_bodies :
  Transaction.state transaction <> TRANSACTION_ERROR ->
  net [] (batchEndpointCall (map projectRequest requests)) = Fulfilled response ->
  BatchResponse.failed response = false ->
  exists bodies,
    settlement net (batchProcessor TRANSACTION_ERROR requests transaction)
    = Fulfilled (JsArray bodies)
    /\ length bodies = length (BatchResponse.responses response)
    /\ forall (i : nat) (item : ResponseItem.t),
         BatchResponse.responses response !! i = Some item ->
         bodies !! i = Some (ResponseItem.body item).
Proof.
  intros open answer ok.
  exists (map ResponseItem.body (BatchResponse.responses response)).
  unfold settlement. rewrite (run_batchProcessor_open open), answer, ok.
  repeat split; [apply length_map |].
  intros i item at_i. rewrite list_lookup_fmap, at_i. reflexivity.
Qed.

(** C6: when the batch response says [failed], the processor rejects
    with the bodies of the response items, in the order of the response,
    and the combined call stays the only network call. *)
Theorem batchProcessor_rejects_bodies :
  Transaction.state transaction <> TRANSACTION_ERROR ->
  net [] (batchEndpointCall (map projectRequest requests)) = Fulfilled response ->
  BatchResponse.failed response = true ->
  (exists bodies,
     settlement net (batchProcessor TRANSACTION_ERROR requests transaction)
     = Rejected (JsArray bodies)
     /\ length bodies = length (BatchResponse.responses response)
     /\ forall (i : nat) (item : ResponseItem.t),
          BatchResponse.responses response !! i = Some item ->
          bodies !! i = Some (ResponseItem.body item))
  /\ networkCalls net (batchProcessor TRANSACTION_ERROR requests transaction)
     = [ batchEndpointCall (map projectRequest requests) ].
Proof.
  intros open answer bad.
  unfold settlement, networkCalls.
  rewrite (run_batchProcessor_open open), answer, bad. split; [| reflexivity].
  exists (map ResponseItem.body (BatchResponse.responses response)).
  repeat split; [apply length_map |].
  intros i item at_i. rewrite list_lookup_fmap, at_i. reflexivity.
Qed.

(** C7: when the response has as many items as there were requests, the
    payload the processor settles with, resolved or rejected, is an array
    as long as the request sequence. *)
Theorem batchProcessor_payload_length :
  Transaction.state transaction <> TRANSACTION_ERROR ->
  net [] (batchEndpointCall (map projectRequest requests)) = Fulfilled response ->
  length (BatchResponse.responses response) = length requests ->
  exists bodies,
    payload (settlement net (batchProcessor TRANSACTION_ERROR requests transaction))
    = JsArray bodies
    /\ length bodies = length requests.
Proof.
  intros open answer aligned.
  exists (map ResponseItem.body (BatchResponse.responses response)).
  unfold settlement. rewrite (run_batchProcessor_open open), answer.
  split; [destruct (BatchResponse.failed response); reflexivity |].
  now rewrite length_map.
Qed.

End BatchProcessor.

(** C10: an empty request sequence is not treated apart: with a
    transaction not in the error state the combined call is still made,
    with an empty [requests] array, and a response that is not [failed]
    and has no items resolves the processor to the empty array. *)
Theorem batchProcessor_empty_batch (TRANSACTION_ERROR : string)
    (transaction : Transaction.t) (net : Network) :
  Transaction.state transaction <> TRANSACTION_ERROR ->
  networkCalls net (batchProcessor TRANSACTION_ERROR [] transaction)
  = [ {| BatchCall.path := "/__experimental/batch";
         BatchCall.method := "POST";
         BatchCall.data := {| BatchData.validation := "require-all-validate";
                              BatchData.requests := [] |} |} ]
  /\ (net [] {| BatchCall.path := "/__experimental/batch";
                BatchCall.method := "POST";
                BatchCall.data := {| BatchData.validation := "require-all-validate";
                                     BatchData.requests := [] |} |}
      = Fulfilled {| BatchResponse.failed := false; BatchResponse.responses := [] |} ->
      settlement net (batchProcessor TRANSACTION_ERROR [] transaction)
      = Fulfilled (JsArray [])).
Proof.
  intros open. unfold networkCalls, settlement.
  rewrite (run_batchProcessor_open _ _ _ _ open). cbn [map].
  unfold batchEndpointCall. split.
  - destruct (net [] _); reflexivity.
  - intros ->. reflexivity.
Qed.

(** C8: reading the wire request projected from a request descriptor back
    as a descriptor gives its path, its method and its body content
    ([data]) unchanged, and its headers too; on the wire the content sits
    under [body]. *)
Theorem projectRequest_round_trip (options : Request.t) :
  Request.path (unprojectRequest (projectRequest options)) = Request.path options
  /\ Request.method (unprojectRequest (projectRequest options)) = Request.method options
  /\ Request.data (unprojectRequest (projectRequest options)) = Request.data options
  /\ Request.headers (unprojectRequest (projectRequest options)) = Request.headers options
  /\ WireRequest.body (projectRequest options) = Request.data options.
Proof. destruct options. repeat split. Qed.

(** ** The effect constructor *)

(** C9: [apiFetch] returns a new object with exactly the two properties
    [type], the string [API_FETCH], and [request], the argument itself (for
    an object, the same reference); every object that existed before,
    the request among them, is left as it was. *)
Theorem apiFetch_descriptor (request : ObjectStore.Value) (heap : ObjectStore.Heap) :
  exists (l : ObjectStore.loc) (descriptor : ObjectStore.Object),
    fst (ObjectStore.apiFetch request heap) = ObjectStore.Ref l
    /\ heap !! l = None
    /\ snd (ObjectStore.apiFetch request heap) !! l = Some descriptor
    /\ descriptor !! "type" = Some (ObjectStore.Str "API_FETCH")
    /\ descriptor !! "request" = Some request
    /\ (forall property : string,
          property <> "type" -> property <> "request" -> descriptor !! property = None)
    /\ (forall (l' : ObjectStore.loc) (object : ObjectStore.Object),
          heap !! l' = Some object ->
          snd (ObjectStore.apiFetch request heap) !! l' = Some object).
Proof.
  unfold ObjectStore.apiFetch, ObjectStore.newObject. cbn [fst snd].
  pose proof (is_fresh (dom heap)) as unused.
  apply not_elem_of_dom in unused.
  eexists _, _. split; [reflexivity |]. split; [exact unused |].
  split; [apply lookup_insert_eq |].
  split; [apply lookup_insert_eq |].
  split; [rewrite lookup_insert_ne by discriminate; apply lookup_insert_eq |].
  split.
  - intros property not_type not_request.
    rewrite !lookup_insert_ne by congruence. apply lookup_empty.
  - intros l' object present. rewrite lookup_insert_ne; [exact present |].
    intros <-. congruence.
Qed.

(** ** The code at the sample data *)

Example indexOf_first_occurrence :
  indexOf "/wp/v2/template-parts/v2/template-parts" "/v2/template-parts" = 3.
Proof. reflexivity. Qed.

Example indexOf_absent : indexOf "/wp/v2/posts" "/v2/template-parts" = -1.
Proof. reflexivity. Qed.

Example indexOf_empty_needle : indexOf "" "" = 0.
Proof. reflexivity. Qed.

Example API_FETCH_batches_saveHeader :
  effectsOf (API_FETCH "ERROR" 0%nat {| Action.type := "API_FETCH"; Action.request := saveHeader |})
  = [ RegisterProcessor 0%nat "core/batch-processing" "API_FETCH" (batchProcessor "ERROR");
      EnqueueItemAndAutocommit 0%nat "core/batch-processing" "API_FETCH" "abc" saveHeader ].
Proof. reflexivity. Qed.

Example API_FETCH_fetches_listPosts :
  effectsOf (API_FETCH "ERROR" 0%nat {| Action.type := "API_FETCH"; Action.request := listPosts |})
  = [ TriggerFetch listPosts ].
Proof. reflexivity. Qed.

(** An empty batch tag is falsy: the request is fetched directly. *)
Example API_FETCH_fetches_empty_tag :
  effectsOf (API_FETCH "ERROR" 0%nat
               {| Action.type := "API_FETCH";
                  Action.request :=
                    {| Request.path := Request.path saveHeader;
                       Request.method := Request.method saveHeader;
                       Request.data := Request.data saveHeader;
                       Request.headers := Request.headers saveHeader;
                       Request.batchAs := Some "" |} |})
  = [ TriggerFetch {| Request.path := Request.path saveHeader;
                      Request.method := Request.method saveHeader;
                      Request.data := Request.data saveHeader;
                      Request.headers := Request.headers saveHeader;
                      Request.batchAs := Some "" |} ].
Proof. reflexivity. Qed.

(** Two batch-eligible requests handled one after the other register the
    processor twice. *)
Example API_FETCH_twice_registers_twice :
  registrations
    (snd (bind (API_FETCH "ERROR" 0%nat
                  {| Action.type := "API_FETCH"; Action.request := saveHeader |})
               (fun _ => API_FETCH "ERROR" 0%nat
                           {| Action.type := "API_FETCH"; Action.request := deleteFooter |})
               []))
  = 2%nat.
Proof. reflexivity. Qed.

Example batchProcessor_rejected_fetch :
  run (fun _ _ => Rejected (JsObject [ ("code", JsString "fetch_error") ])) []
      (batchProcessor "ERROR" [ saveHeader ] openTransaction)
  = ([ batchEndpointCall [ projectRequest saveHeader ] ],
     Rejected (JsObject [ ("code", JsString "fetch_error") ])).
Proof. reflexivity. Qed.

(** ** The theorems at the sample data *)

Lemma batchProcessor_transaction_error_witness :
  Transaction.state brokenTransaction = "ERROR"
  /\ (settlement (answering {| BatchResponse.failed := false;
                               BatchResponse.responses := [ headerSaved; footerDeleted ] |})
        (batchProcessor "ERROR" [ saveHeader; deleteFooter ] brokenTransaction)
      = Rejected (JsObject [ ("code", JsString "transaction_failed");
                             ("data", JsObject [ ("status", JsNumber 500) ]);
                             ("message", JsString "Transaction failed.") ])
      /\ networkCalls (answering {| BatchResponse.failed := false;
                                    BatchResponse.responses := [ headerSaved; footerDeleted ] |})
           (batchProcessor "ERROR" [ saveHeader; deleteFooter ] brokenTransaction)
         = []).
Proof.
  split; [reflexivity |].
  apply (batchProcessor_transaction_error "ERROR" [ saveHeader; deleteFooter ]
           brokenTransaction).
  reflexivity.
Defined.

Lemma batchProcessor_one_combined_call_witness :
  Transaction.state openTransaction <> "ERROR"
  /\ exists combined,
       networkCalls (answering {| BatchResponse.failed := false;
                                  BatchResponse.responses := [ headerSaved; footerDeleted ] |})
         (batchProcessor "ERROR" [ saveHeader; deleteFooter ] openTransaction)
       = [ combined ]
       /\ BatchCall.path combined = "/__experimental/batch"
       /\ BatchCall.method combined = "POST"
       /\ BatchData.validation (BatchCall.data combined) = "require-all-validate"
       /\ length (BatchData.requests (BatchCall.data combined))
          = length [ saveHeader; deleteFooter ]
       /\ forall (i : nat) (options : Request.t),
            [ saveHeader; deleteFooter ] !! i = Some options ->
            BatchData.requests (BatchCall.data combined) !! i
            = Some {| WireRequest.path := Request.path options;
                      WireRequest.body := Request.data options;
                      WireRequest.method := Request.method options;
                      WireRequest.headers := Request.headers options |}.
Proof.
  split; [discriminate |].
  apply (batchProcessor_one_combined_call "ERROR" [ saveHeader; deleteFooter ]
           openTransaction).
  discriminate.
Defined.

Lemma batchProcessor_resolves_bodies_witness :
  Transaction.state openTransaction <> "ERROR"
  /\ BatchResponse.failed {| BatchResponse.failed := false;
                             BatchResponse.responses := [ headerSaved; footerDeleted ] |}
     = false
  /\ exists bodies,
       settlement (answering {| BatchResponse.failed := false;
                                BatchResponse.responses := [ headerSaved; footerDeleted ] |})
         (batchProcessor "ERROR" [ saveHeader; deleteFooter ] openTransaction)
       = Fulfilled (JsArray bodies)
       /\ length bodies = length [ headerSaved; footerDeleted ]
       /\ forall (i : nat) (item : ResponseItem.t),
            [ headerSaved; footerDeleted ] !! i = Some item ->
            bodies !! i = Some (ResponseItem.body item).
Proof.
  split; [discriminate |]. split; [reflexivity |].
  apply (batchProcessor_resolves_bodies "ERROR" [ saveHeader; deleteFooter ]
           openTransaction
           (answering {| BatchResponse.failed := false;
                         BatchResponse.responses := [ headerSaved; footerDeleted ] |})
           {| BatchResponse.failed := false;
              BatchResponse.responses := [ headerSaved; footerDeleted ] |});
    [discriminate | reflexivity | reflexivity].
Defined.

Lemma batchProcessor_rejects_bodies_witness :
  Transaction.state openTransaction <> "ERROR"
  /\ BatchResponse.failed {| BatchResponse.failed := true;
                             BatchResponse.responses := [ headerSaved; footerMissing ] |}
     = true
  /\ (exists bodies,
        settlement (answering {| BatchResponse.failed := true;
                                 BatchResponse.responses := [ headerSaved; footerMissing ] |})
          (batchProcessor "ERROR" [ saveHeader; deleteFooter ] openTransaction)
        = Rejected (JsArray bodies)
        /\ length bodies = length [ headerSaved; footerMissing ]
        /\ forall (i : nat) (item : ResponseItem.t),
             [ headerSaved; footerMissing ] !! i = Some item ->
             bodies !! i = Some (ResponseItem.body item))
  /\ networkCalls (answering {| BatchResponse.failed := true;
                                BatchResponse.responses := [ headerSaved; footerMissing ] |})
       (batchProcessor "ERROR" [ saveHeader; deleteFooter ] openTransaction)
     = [ batchEndpointCall (map projectRequest [ saveHeader; deleteFooter ]) ].
Proof.
  split; [discriminate |]. split; [reflexivity |].
  apply (batchProcessor_rejects_bodies "ERROR" [ saveHeader; deleteFooter ]
           openTransaction
           (answering {| BatchResponse.failed := true;
                         BatchResponse.responses := [ headerSaved; footerMissing ] |})
           {| BatchResponse.failed := true;
              BatchResponse.responses := [ headerSaved; footerMissing ] |});
    [discriminate | reflexivity | reflexivity].
Defined.

Lemma batchProcessor_payload_length_witness :
  Transaction.state openTransaction <> "ERROR"
  /\ length [ headerSaved; footerMissing ] = length [ saveHeader; deleteFooter ]
  /\ exists bodies,
       payload (settlement
                  (answering {| BatchResponse.failed := true;
                                BatchResponse.responses := [ headerSaved; footerMissing ] |})
                  (batchProcessor "ERROR" [ saveHeader; deleteFooter ] openTransaction))
       = JsArray bodies
       /\ length bodies = length [ saveHeader; deleteFooter ].
Proof.
  split; [discriminate |]. split; [reflexivity |].
  apply (batchProcessor_payload_length "ERROR" [ saveHeader; deleteFooter ]
           openTransaction
           (answering {| BatchResponse.failed := true;
                         BatchResponse.responses := [ headerSaved; footerMissing ] |})
           {| BatchResponse.failed := true;
              BatchResponse.responses := [ headerSaved; footerMissing ] |});
    [discriminate | reflexivity | reflexivity].
Defined.

Lemma batchProcessor_empty_batch_witness :
  Transaction.state openTransaction <> "ERROR"
  /\ networkCalls (answering {| BatchResponse.failed := false;
                                BatchResponse.responses := [] |})
       (batchProcessor "ERROR" [] openTransaction)
     = [ {| BatchCall.path := "/__experimental/batch";
            BatchCall.method := "POST";
            BatchCall.data := {| BatchData.validation := "require-all-validate";
                                 BatchData.requests := [] |} |} ]
  /\ settlement (answering {| BatchResponse.failed := false;
                              BatchResponse.responses := [] |})
       (batchProcessor "ERROR" [] openTransaction)
     = Fulfilled (JsArray []).
Proof.
  split; [discriminate |].
  destruct (batchProcessor_empty_batch "ERROR" openTransaction
              (answering {| BatchResponse.failed := false;
                            BatchResponse.responses := [] |}))
    as [calls resolved]; [discriminate |].
  split; [exact calls | apply resolved; reflexivity].
Defined.

(** * Further properties of the adapter *)

(** ** The batch-eligibility predicate *)

Lemma append_assoc (a b c : string) : (a +:+ b) +:+ c = a +:+ b +:+ c.
Proof.
  induction a as [|x a IH]; [reflexivity |].
  rewrite !append_String. now rewrite IH.
Qed.

(** X1: a path that supports batching still does with any text before and
    after it (a namespace prefix, an id, a query string): the test looks
    for the marker anywhere in the path. *)
Theorem endpointSupportsBatch_surrounded (pre path post : string) :
  endpointSupportsBatch path = true ->
  endpointSupportsBatch (pre +:+ path +:+ post) = true.
Proof.
  rewrite !endpointSupportsBatch_contains. intros (before & after & ->).
  exists (pre +:+ before), (after +:+ post).
  now rewrite !append_assoc.
Qed.

(** ** The control *)

(** X2: a request without a [method] property, or without a [batchAs]
    property, is fetched directly, whatever its path: the fetch is the
    only call made. *)
Theorem API_FETCH_missing_method_or_tag (TRANSACTION_ERROR : string)
    (registry : Registry) (action : Action.t) :
  Request.method (Action.request action) = None
  \/ Request.batchAs (Action.request action) = None ->
  effectsOf (API_FETCH TRANSACTION_ERROR registry action)
  = [ TriggerFetch (Action.request action) ].
Proof.
  unfold effectsOf, API_FETCH. intros [-> | ->]; cbn [includes truthy negb orb].
  - reflexivity.
  - rewrite orb_true_r. reflexivity.
Qed.

Lemma API_FETCH_log (TRANSACTION_ERROR : string) (registry : Registry)
    (action : Action.t) (log : list Effect) :
  snd (API_FETCH TRANSACTION_ERROR registry action log)
  = log ++ effectsOf (API_FETCH TRANSACTION_ERROR registry action).
Proof.
  unfold effectsOf, API_FETCH. destruct (_ || _ || _); cbn; [reflexivity |].
  now rewrite <- app_assoc.
Qed.

Lemma API_FETCH_effects_cases (TRANSACTION_ERROR : string) (registry : Registry)
    (action : Action.t) :
  effectsOf (API_FETCH TRANSACTION_ERROR registry action)
  = [ TriggerFetch (Action.request action) ]
  \/ effectsOf (API_FETCH TRANSACTION_ERROR registry action)
     = [ RegisterProcessor registry "core/batch-processing" "API_FETCH"
           (batchProcessor TRANSACTION_ERROR);
         EnqueueItemAndAutocommit registry "core/batch-processing" "API_FETCH" "abc"
           (Action.request action) ].
Proof.
  unfold effectsOf, API_FETCH. destruct (_ || _ || _); [left | right]; reflexivity.
Qed.

Lemma dispatchEach_log (TRANSACTION_ERROR : string) (jobs : list (Registry * Action.t))
    (log : list Effect) :
  snd (dispatchEach TRANSACTION_ERROR jobs log)
  = log ++ effectsOf (dispatchEach TRANSACTION_ERROR jobs).
Proof.
  revert log. induction jobs as [|[registry action] rest IH]; intros log.
  - cbn. now rewrite app_nil_r.
  - unfold effectsOf. cbn [dispatchEach]. unfold bind.
    destruct (API_FETCH TRANSACTION_ERROR registry action log) as [r log1] eqn:first.
    destruct (API_FETCH TRANSACTION_ERROR registry action []) as [r0 log0] eqn:first0.
    pose proof (API_FETCH_log TRANSACTION_ERROR registry action log) as at_log.
    rewrite first in at_log. unfold effectsOf in at_log. rewrite first0 in at_log.
    cbn in at_log. subst log1.
    rewrite (IH (log ++ log0)), (IH log0). now rewrite app_assoc.
Qed.

Lemma dispatchEach_cons (TRANSACTION_ERROR : string) (registry : Registry)
    (action : Action.t) (rest : list (Registry * Action.t)) :
  effectsOf (dispatchEach TRANSACTION_ERROR ((registry, action) :: rest))
  = effectsOf (API_FETCH TRANSACTION_ERROR registry action)
    ++ effectsOf (dispatchEach TRANSACTION_ERROR rest).
Proof.
  unfold effectsOf at 1. cbn [dispatchEach]. unfold bind.
  destruct (API_FETCH TRANSACTION_ERROR registry action []) as [r log0] eqn:first.
  rewrite dispatchEach_log. unfold effectsOf at 2. now rewrite first.
Qed.

(** X3: over any run of the control, the requests fetched or enqueued
    are, in order, exactly the requests of the actions handled: each
    request is consumed once, none is dropped, doubled or reordered. *)
Theorem dispatchEach_consumes_each_once (TRANSACTION_ERROR : string)
    (jobs : list (Registry * Action.t)) :
  omap consumed (effectsOf (dispatchEach TRANSACTION_ERROR jobs))
  = map (fun job => Action.request (snd job)) jobs.
Proof.
  induction jobs as [|[registry action] rest IH]; [reflexivity |].
  rewrite dispatchEach_cons, omap_app, IH.
  destruct (API_FETCH_effects_cases TRANSACTION_ERROR registry action) as [-> | ->];
    reflexivity.
Qed.

(** X4: over any run of the control, every [enqueueItemAndAutocommit]
    call comes right after a [registerProcessor] call on the same registry
    and store that registers [batchProcessor] for the same effect type;
    the effect type is [API_FETCH] and the batch group [abc]. *)
Theorem dispatchEach_registers_before_enqueue (TRANSACTION_ERROR : string)
    (jobs : list (Registry * Action.t)) (i : nat) (registry : Registry)
    (storeName effectType groupId : string) (item : Request.t) :
  effectsOf (dispatchEach TRANSACTION_ERROR jobs) !! i
  = Some (EnqueueItemAndAutocommit registry storeName effectType groupId item) ->
  effectType = "API_FETCH" /\ groupId = "abc" /\ storeName = "core/batch-processing"
  /\ exists j : nat,
       i = S j
       /\ effectsOf (dispatchEach TRANSACTION_ERROR jobs) !! j
          = Some (RegisterProcessor registry storeName effectType
                    (batchProcessor TRANSACTION_ERROR)).
Proof.
  revert i. induction jobs as [|[registry' action] rest IH]; intros i.
  - cbn. discriminate.
  - rewrite dispatchEach_cons.
    destruct (API_FETCH_effects_cases TRANSACTION_ERROR registry' action) as [-> | ->].
    + destruct i as [|i]; cbn; [discriminate |].
      intros at_i. destruct (IH i at_i) as (-> & -> & -> & j & -> & at_j).
      repeat split. now exists (S j).
    + destruct i as [|[|i]]; cbn.
      * discriminate.
      * intros [= -> -> -> -> ->]. repeat split. now exists 0%nat.
      * intros at_i. destruct (IH i at_i) as (-> & -> & -> & j & -> & at_j).
        repeat split. now exists (S (S j)).
Qed.

(** ** The batch processor *)

(** X5: when the combined call itself fails (its promise is rejected, as
    on a transport or HTTP error), the processor rejects with that very
    error, and the failed call stays its only network call. *)
Theorem batchProcessor_fetch_rejected (TRANSACTION_ERROR : string)
    (requests : list Request.t) (transaction : Transaction.t) (net : Network)
    (e : JsValue) :
  Transaction.state transaction <> TRANSACTION_ERROR ->
  net [] (batchEndpointCall (map projectRequest requests)) = Rejected e ->
  settlement net (batchProcessor TRANSACTION_ERROR requests transaction) = Rejected e
  /\ networkCalls net (batchProcessor TRANSACTION_ERROR requests transaction)
     = [ batchEndpointCall (map projectRequest requests) ].
Proof.
  intros open failure. unfold settlement, networkCalls.
  rewrite (run_batchProcessor_open _ _ _ _ open), failure. split; reflexivity.
Qed.

(** X6: the processor makes no network call exactly when the transaction
    is in the error state, and never more than one. *)
Theorem batchProcessor_calls_iff_open (TRANSACTION_ERROR : string)
    (requests : list Request.t) (transaction : Transaction.t) (net : Network) :
  (networkCalls net (batchProcessor TRANSACTION_ERROR requests transaction) = []
   <-> Transaction.state transaction = TRANSACTION_ERROR)
  /\ (length (networkCalls net (batchProcessor TRANSACTION_ERROR requests transaction))
      <= 1)%nat.
Proof.
  unfold networkCalls.
  destruct (String.eqb_spec (Transaction.state transaction) TRANSACTION_ERROR)
    as [broken | open].
  - unfold batchProcessor. rewrite broken, String.eqb_refl. cbn. split; [tauto | lia].
  - rewrite (run_batchProcessor_open _ _ _ _ open).
    destruct (net [] _); cbn; (split; [split; [discriminate | tauto] | lia]).
Qed.

(** X7: the batch tags of the requests never reach the network: with any
    other tags on the same requests the processor makes the same call and
    settles the same way. *)
Theorem batchProcessor_ignores_batchAs (TRANSACTION_ERROR : string)
    (requests : list Request.t) (transaction : Transaction.t) (net : Network)
    (tags : Request.t -> option string) :
  run net [] (batchProcessor TRANSACTION_ERROR
                (map (fun options => retagged (tags options) options) requests)
                transaction)
  = run net [] (batchProcessor TRANSACTION_ERROR requests transaction).
Proof.
  assert (same : map projectRequest
                   (map (fun options => retagged (tags options) options) requests)
                 = map projectRequest requests).
  { rewrite map_map. apply map_ext. intros options. reflexivity. }
  unfold batchProcessor. now rewrite same.
Qed.

(** ** The effect constructor *)

(** X8: two calls of [apiFetch] on the same request make two distinct
    descriptor objects, both alive afterwards and both holding the same
    request value: descriptors are never shared, the request always is. *)
Theorem apiFetch_twice_shares_request (request : ObjectStore.Value)
    (heap : ObjectStore.Heap) :
  exists (l1 l2 : ObjectStore.loc) (d1 d2 : ObjectStore.Object),
    fst (ObjectStore.apiFetch request heap) = ObjectStore.Ref l1
    /\ fst (ObjectStore.apiFetch request (snd (ObjectStore.apiFetch request heap)))
       = ObjectStore.Ref l2
    /\ l1 <> l2
    /\ snd (ObjectStore.apiFetch request (snd (ObjectStore.apiFetch request heap))) !! l1
       = Some d1
    /\ snd (ObjectStore.apiFetch request (snd (ObjectStore.apiFetch request heap))) !! l2
       = Some d2
    /\ d1 !! "request" = Some request
    /\ d2 !! "request" = Some request.
Proof.
  unfold ObjectStore.apiFetch, ObjectStore.newObject. cbn [fst snd].
  set (o := <["type" := ObjectStore.Str "API_FETCH"]> (<["request" := request]> ∅)).
  set (l1 := fresh (dom heap)).
  set (l2 := fresh (dom (<[l1 := o]> heap))).
  assert (apart : l1 <> l2).
  { intros same. apply (is_fresh (dom (<[l1 := o]> heap))).
    fold l2. rewrite <- same. apply elem_of_dom. rewrite lookup_insert_eq. eauto. }
  assert (has : o !! "request" = Some request).
  { unfold o. rewrite lookup_insert_ne by discriminate. apply lookup_insert_eq. }
  exists l1, l2, o, o. repeat split; try assumption.
  - rewrite lookup_insert_ne by congruence. apply lookup_insert_eq.
  - apply lookup_insert_eq.
Qed.

(** * Properties of the block variation transforms component *)

Section BlockVariationTransformsProperties.

Variable translate : string -> string.
Variable getBlockName : string -> option string.
Variable getBlockVariations : string -> string -> option (list Variation.t).

(** X9: the component renders its select control exactly when a block is
    selected (a non-empty client id), the editor knows a non-empty name
    for it, and that name has at least one variation of scope
    [transform]; the control then shows the current state value and the
    options of those variations.  In every other case it renders
    nothing. *)
Theorem component_renders_iff (selectedBlockClientId : option string)
    (variationsSelectValue : string) (element : Element.t) :
  __experimentalBlockVariationTransforms translate getBlockName getBlockVariations
    selectedBlockClientId variationsSelectValue = Some element
  <-> exists (clientId blockName : string) (variations : list Variation.t),
        selectedBlockClientId = Some clientId /\ clientId <> ""
        /\ getBlockName clientId = Some blockName /\ blockName <> ""
        /\ getBlockVariations blockName "transform" = Some variations
        /\ variations <> []
        /\ element = {| Element.className := "block-editor-block-variation-transforms";
                        Element.label := translate "Transform to variation";
                        Element.value := variationsSelectValue;
                        Element.options := selectOptions translate variations |}.
Proof.
  unfold __experimentalBlockVariationTransforms, useSelectVariations, andThen.
  split.
  - destruct selectedBlockClientId as [clientId|]; [| discriminate].
    destruct (String.eqb_spec clientId ""); [discriminate |].
    destruct (getBlockName clientId) as [blockName|] eqn:named; [| discriminate].
    destruct (String.eqb_spec blockName ""); [discriminate |].
    destruct (getBlockVariations blockName "transform") as [[|v vs]|] eqn:found;
      [discriminate | | discriminate].
    intros [= <-]. exists clientId, blockName, (v :: vs). repeat split; try assumption.
    discriminate.
  - intros (clientId & blockName & variations & -> & some_id & named & some_name
            & found & some & ->).
    destruct (String.eqb_spec clientId ""); [contradiction |].
    rewrite named.
    destruct (String.eqb_spec blockName ""); [contradiction |].
    rewrite found. destruct variations; [contradiction | reflexivity].
Qed.

End BlockVariationTransformsProperties.

Lemma find_first_match (variationName : string) (before after : list Variation.t)
    (variation : Variation.t) :
  Variation.name variation = variationName ->
  (forall other, In other before -> Variation.name other <> variationName) ->
  List.find (fun v => String.eqb (Variation.name v) variationName)
            (before ++ variation :: after)
  = Some variation.
Proof.
  intros named others. induction before as [|w before IH]; cbn.
  - now rewrite named, String.eqb_refl.
  - rewrite (String_eqb_neq_false _ _ (others w (or_introl eq_refl))).
    apply IH. intros other inside. apply others. now right.
Qed.

Lemma find_no_match (variationName : string) (variations : list Variation.t) :
  (forall other, In other variations -> Variation.name other <> variationName) ->
  List.find (fun v => String.eqb (Variation.name v) variationName) variations = None.
Proof.
  intros others. destruct (List.find _ variations) as [v|] eqn:found; [| reflexivity].
  apply find_some in found as [inside same].
  apply String.eqb_eq in same. now destruct (others v inside).
Qed.

(** X10: choosing a non-empty name that some variation bears records the
    choice and then updates the selected block, once, with the attributes
    of the first variation of that name (none when that variation declares
    no attributes); later variations of the same name are never used. *)
Theorem onSelectVariation_applies_first_match (selectedBlockClientId : option string)
    (variationName : string) (before after : list Variation.t)
    (variation : Variation.t) :
  variationName <> "" ->
  Variation.name variation = variationName ->
  (forall other, In other before -> Variation.name other <> variationName) ->
  onSelectVariation selectedBlockClientId (before ++ variation :: after) variationName
  = ([ SetVariationsSelectValue variationName;
       UpdateBlockAttributes selectedBlockClientId
         (match Variation.attributes variation with
          | Some properties => properties
          | None => []
          end) ],
     Completed).
Proof.
  intros some named others. unfold onSelectVariation.
  rewrite (String_eqb_neq_false _ _ some).
  now rewrite (find_first_match _ _ _ _ named others).
Qed.

(** X11: choosing a non-empty name that no variation bears records the
    choice and then throws a [TypeError] (the attributes of a variation
    that was not found are read); the block is not updated. *)
Theorem onSelectVariation_unknown_name_throws (selectedBlockClientId : option string)
    (variations : list Variation.t) (variationName : string) :
  variationName <> "" ->
  (forall other, In other variations -> Variation.name other <> variationName) ->
  onSelectVariation selectedBlockClientId variations variationName
  = ([ SetVariationsSelectValue variationName ], ThrewTypeError).
Proof.
  intros some others. unfold onSelectVariation.
  rewrite (String_eqb_neq_false _ _ some).
  now rewrite (find_no_match _ _ others).
Qed.

(** X12: the handler never throws on a value the control offers: for every
    option built from the variations, the placeholder included, choosing
    its value completes normally. *)
Theorem onSelectVariation_offered_value_completes (translate : string -> string)
    (selectedBlockClientId : option string) (variations : list Variation.t)
    (choice : SelectOption.t) :
  In choice (selectOptions translate variations) ->
  snd (onSelectVariation selectedBlockClientId variations (SelectOption.value choice))
  = Completed.
Proof.
  unfold selectOptions, onSelectVariation. intros [<- | offered]; [reflexivity |].
  apply in_map_iff in offered as (variation & <- & inside). cbn [SelectOption.value].
  destruct (String.eqb (Variation.name variation) ""); [reflexivity |].
  destruct (List.find _ variations) as [v|] eqn:found; [reflexivity |].
  apply (find_none _ _ found) in inside. cbn in inside.
  now rewrite String.eqb_refl in inside.
Qed.

(** X13: whatever is chosen, the handler updates no block but the selected
    one, and only with the attributes of a variation that bears the chosen
    name, which is then not empty: the placeholder never changes the
    block. *)
Theorem onSelectVariation_updates_only_selected (selectedBlockClientId : option string)
    (variations : list Variation.t) (variationName : string)
    (clientId : option string) (attributes : list (string * JsValue)) :
  In (UpdateBlockAttributes clientId attributes)
     (fst (onSelectVariation selectedBlockClientId variations variationName)) ->
  clientId = selectedBlockClientId
  /\ variationName <> ""
  /\ exists variation,
       In variation variations
       /\ Variation.name variation = variationName
       /\ attributes = spread (Variation.attributes variation).
Proof.
  unfold onSelectVariation.
  destruct (String.eqb_spec variationName "") as [-> | some].
  - cbn. intros [[=] | []].
  - destruct (List.find _ variations) as [v|] eqn:found; cbn.
    + intros [[=] | [[= <- <-] | []]].
      apply find_some in found as [inside same]. apply String.eqb_eq in same.
      repeat split; [assumption |]. now exists v.
    + intros [[=] | []].
Qed.

(** ** The further properties at the sample data *)

Example component_renders_group_block :
  __experimentalBlockVariationTransforms (fun text => text) sampleBlockName
    sampleBlockVariations (Some "block-1") "group-stack"
  = Some {| Element.className := "block-editor-block-variation-transforms";
            Element.label := "Transform to variation";
            Element.value := "group-stack";
            Element.options :=
              [ {| SelectOption.value := ""; SelectOption.label := "Select a variation" |};
                {| SelectOption.value := "group-row"; SelectOption.label := "Row" |};
                {| SelectOption.value := "group-stack"; SelectOption.label := "Stack" |} ] |}.
Proof. reflexivity. Qed.

Example component_renders_nothing_unselected :
  __experimentalBlockVariationTransforms (fun text => text) sampleBlockName
    sampleBlockVariations None "" = None
  /\ __experimentalBlockVariationTransforms (fun text => text) sampleBlockName
       sampleBlockVariations (Some "block-2") "" = None.
Proof. split; reflexivity. Qed.

Lemma endpointSupportsBatch_surrounded_witness :
  endpointSupportsBatch "/v2/template-parts" = true
  /\ endpointSupportsBatch ("/wp" +:+ "/v2/template-parts" +:+ "/7?context=edit") = true.
Proof.
  split; [reflexivity |].
  apply (endpointSupportsBatch_surrounded "/wp" "/v2/template-parts" "/7?context=edit").
  reflexivity.
Defined.

Lemma API_FETCH_missing_method_or_tag_witness :
  (Request.method listPosts = None \/ Request.batchAs listPosts = None)
  /\ effectsOf (API_FETCH "ERROR" 0%nat
                  {| Action.type := "API_FETCH"; Action.request := listPosts |})
     = [ TriggerFetch listPosts ].
Proof.
  split; [left; reflexivity |].
  apply (API_FETCH_missing_method_or_tag "ERROR" 0%nat
           {| Action.type := "API_FETCH"; Action.request := listPosts |}).
  left. reflexivity.
Defined.

Lemma dispatchEach_registers_before_enqueue_witness :
  effectsOf (dispatchEach "ERROR"
               [ (0%nat, {| Action.type := "API_FETCH"; Action.request := listPosts |});
                 (1%nat, {| Action.type := "API_FETCH"; Action.request := saveHeader |}) ])
    !! 2%nat
  = Some (EnqueueItemAndAutocommit 1%nat "core/batch-processing" "API_FETCH" "abc" saveHeader)
  /\ ("API_FETCH" = "API_FETCH" /\ "abc" = "abc"
      /\ "core/batch-processing" = "core/batch-processing"
      /\ exists j : nat,
           2%nat = S j
           /\ effectsOf (dispatchEach "ERROR"
                 [ (0%nat, {| Action.type := "API_FETCH"; Action.request := listPosts |});
                   (1%nat, {| Action.type := "API_FETCH"; Action.request := saveHeader |}) ])
                !! j
              = Some (RegisterProcessor 1%nat "core/batch-processing" "API_FETCH"
                        (batchProcessor "ERROR"))).
Proof.
  split; [reflexivity |].
  apply (dispatchEach_registers_before_enqueue "ERROR"
           [ (0%nat, {| Action.type := "API_FETCH"; Action.request := listPosts |});
             (1%nat, {| Action.type := "API_FETCH"; Action.request := saveHeader |}) ]
           2%nat 1%nat "core/batch-processing" "API_FETCH" "abc" saveHeader).
  reflexivity.
Defined.

Lemma batchProcessor_fetch_rejected_witness :
  Transaction.state openTransaction <> "ERROR"
  /\ settlement (fun _ _ => Rejected (JsObject [ ("code", JsString "fetch_error") ]))
       (batchProcessor "ERROR" [ saveHeader; deleteFooter ] openTransaction)
     = Rejected (JsObject [ ("code", JsString "fetch_error") ])
  /\ networkCalls (fun _ _ => Rejected (JsObject [ ("code", JsString "fetch_error") ]))
       (batchProcessor "ERROR" [ saveHeader; deleteFooter ] openTransaction)
     = [ batchEndpointCall (map projectRequest [ saveHeader; deleteFooter ]) ].
Proof.
  split; [discriminate |].
  apply (batchProcessor_fetch_rejected "ERROR" [ saveHeader; deleteFooter ] openTransaction
           (fun _ _ => Rejected (JsObject [ ("code", JsString "fetch_error") ]))
           (JsObject [ ("code", JsString "fetch_error") ]));
    [discriminate | reflexivity].
Defined.

Lemma onSelectVariation_applies_first_match_witness :
  "group-row" <> ""
  /\ Variation.name groupRow = "group-row"
  /\ (forall other, In other [ groupStack ] -> Variation.name other <> "group-row")
  /\ onSelectVariation (Some "block-1") ([ groupStack ] ++ groupRow :: [ groupRowAgain ])
       "group-row"
     = ([ SetVariationsSelectValue "group-row";
          UpdateBlockAttributes (Some "block-1") [ ("layout", JsString "flex") ] ],
        Completed).
Proof.
  split; [discriminate |]. split; [reflexivity |].
  split; [intros other [<- | []]; discriminate |].
  apply (onSelectVariation_applies_first_match (Some "block-1") "group-row"
           [ groupStack ] [ groupRowAgain ] groupRow);
    [discriminate | reflexivity | intros other [<- | []]; discriminate].
Defined.

Lemma onSelectVariation_unknown_name_throws_witness :
  "group-grid" <> ""
  /\ (forall other, In other [ groupRow; groupStack ] -> Variation.name other <> "group-grid")
  /\ onSelectVariation (Some "block-1") [ groupRow; groupStack ] "group-grid"
     = ([ SetVariationsSelectValue "group-grid" ], ThrewTypeError).
Proof.
  split; [discriminate |].
  split; [intros other [<- | [<- | []]]; discriminate |].
  apply (onSelectVariation_unknown_name_throws (Some "block-1") [ groupRow; groupStack ]
           "group-grid");
    [discriminate | intros other [<- | [<- | []]]; discriminate].
Defined.

Lemma onSelectVariation_offered_value_completes_witness :
  In {| SelectOption.value := "group-stack"; SelectOption.label := "Stack" |}
     (selectOptions (fun text => text) [ groupRow; groupStack ])
  /\ snd (onSelectVariation (Some "block-1") [ groupRow; groupStack ]
            (SelectOption.value
               {| SelectOption.value := "group-stack"; SelectOption.label := "Stack" |}))
     = Completed.
Proof.
  split; [right; right; left; reflexivity |].
  apply (onSelectVariation_offered_value_completes (fun text => text) (Some "block-1")
           [ groupRow; groupStack ]
           {| SelectOption.value := "group-stack"; SelectOption.label := "Stack" |}).
  right; right; left; reflexivity.
Defined.

Lemma onSelectVariation_updates_only_selected_witness :
  In (UpdateBlockAttributes (Some "block-1") [ ("layout", JsString "flex") ])
     (fst (onSelectVariation (Some "block-1") [ groupRow; groupStack; groupRowAgain ]
             "group-row"))
  /\ (Some "block-1" = Some "block-1"
      /\ "group-row" <> ""
      /\ exists variation,
           In variation [ groupRow; groupStack; groupRowAgain ]
           /\ Variation.name variation = "group-row"
           /\ [ ("layout", JsString "flex") ] = spread (Variation.attributes variation)).
Proof.
  split; [right; left; reflexivity |].
  apply (onSelectVariation_updates_only_selected (Some "block-1")
           [ groupRow; groupStack; groupRowAgain ] "group-row" (Some "block-1")
           [ ("layout", JsString "flex") ]).
  right; left; reflexivity.
Defined.
